(** * Group chat message routes: a shallow embedding of [src/routes/api/messages.js]

    The file embeds the five Express handlers of the message router together
    with the part of Mongoose and Express they rely on, and states the
    properties of the message service over that embedding.

    Conventions of the embedding.
    - A handler body is a computation in a state-and-exception monad [M]: the
      state is the document store plus the Express response object, the
      exception is the JavaScript error that was thrown.
    - The two GET handlers are written in the source without the [async]
      keyword although their bodies use [await]; they are embedded with the
      same [await] semantics as the three [async] handlers.
    - [ensureAuthenticated] lives in [../auth/github-auth], which is not part
      of the sources at hand: a [Request] is a request that passed it, so
      [req.user] is defined and carries a [username].
    - The request body is JSON with a string [content], as the client sends it. *)

From Stdlib Require Import String Ascii List ZArith Bool Lia Sorted Permutation.
Import ListNotations.
Local Open Scope Z_scope.
Local Open Scope list_scope.

(** ** Object ids *)

(** An ObjectId is kept in its textual form, 24 lower-case hexadecimal digits. *)
Definition ObjectId := string.

Definition is_hex_digit (c : ascii) : bool :=
  let n := nat_of_ascii c in
  ((48 <=? n)%nat && (n <=? 57)%nat)
  || ((97 <=? n)%nat && (n <=? 102)%nat)
  || ((65 <=? n)%nat && (n <=? 70)%nat).

Definition lower_hex (c : ascii) : ascii :=
  let n := nat_of_ascii c in
  if ((65 <=? n)%nat && (n <=? 70)%nat) then ascii_of_nat (n + 32) else c.

(** Mongoose's cast of a route parameter to an ObjectId: the string has to be
    24 hexadecimal digits; anything else is a cast failure. *)
Definition castObjectId (s : string) : option ObjectId :=
  let cs := list_ascii_of_string s in
  if ((List.length cs =? 24)%nat && forallb is_hex_digit cs)
  then Some (string_of_list_ascii (map lower_hex cs))
  else None.

(** ** Documents *)

(** [models/User.js]: [username] and [displayName], both required strings. *)
Record User := mkUser {
  u_id : ObjectId;
  username : string;
  displayName : string
}.

(** Modelled from the spec: the Group model ([models/Group.js]) is not among
    the sources; section 3 of the specification gives a group an identifier,
    a name, an admin identifier, a set of member identifiers and a set of
    invitee identifiers.  The field names [adminId], [members], [invitees]
    are the ones the route and the client code read. *)
Record Group := mkGroup {
  g_id : ObjectId;
  name : string;
  adminId : ObjectId;
  members : list ObjectId;
  invitees : list ObjectId
}.

(** Modelled from the spec: the Message model ([models/Message.js]) is not
    among the sources; section 3 gives a message an identifier, a group
    identifier, a sender identifier, a text content, a sent timestamp set at
    creation and an edited flag.  The field names are the ones the route
    uses ([groupId], [senderId], [content], [dateSent], [edited]).  A message
    saved without a sender has the field absent: [senderId = None]. *)
Record Message := mkMessage {
  m_id : ObjectId;
  groupId : ObjectId;
  senderId : option ObjectId;
  content : string;
  dateSent : Z;
  edited : bool
}.

(** What the Message schema declares [required]; the schema file is not among
    the sources, so the handlers are parametric in it. *)
Record MessageSchema := mkSchema {
  senderId_required : bool;
  content_required : bool
}.

(** Modelled from the spec: the Message schema as section 4.2 words it,
    "Requires non-empty content"; nothing is said to be required of the
    sender field. *)
Definition spec_schema : MessageSchema :=
  {| senderId_required := false; content_required := true |}.

Record Store := mkStore {
  users : list User;
  groups : list Group;
  messages : list Message
}.

(** ** JavaScript values and errors *)

(** An unexecuted Mongoose query object. *)
Inductive Query :=
| QUserFindOne (uname : string).

Inductive Value :=
| VUndefined
| VNull
| VString (s : string)
| VObjectId (o : ObjectId)
| VQuery (q : Query)
| VUser (u : User)
| VGroup (g : Group)
| VRes.                          (* the Express response object *)

Inductive JsError :=
| TypeError (prop : string)          (* Cannot read properties of undefined (reading 'prop') *)
| ReferenceError (ident : string)    (* ident is not defined *)
| CastError (path : string)          (* Mongoose: cast to ObjectId failed for path *)
| ValidationError (paths : list string) (* Mongoose: validation failed for paths *)
| MongoError (code : Z).             (* driver error, 11000 is a duplicate key *)

(** ** The response object *)

Inductive Payload :=
| NoData                             (* {success: true} *)
| DataMessage (m : option Message)   (* {success: true, data: m}, None is null *)
| DataMessages (ms : list Message).  (* {success: true, data: [..]} *)

Inductive Body :=
| Success (d : Payload)
| Failure (e : JsError).             (* {success: false, error: e} *)

Record Res := mkRes {
  statusCode : Z;
  sentBody : option Body
}.

(** A fresh response has status 200 and nothing sent. *)
Definition fresh_res : Res := {| statusCode := 200; sentBody := None |}.

(** ** The monad of handler bodies *)

Record World := mkWorld {
  store : Store;
  res : Res
}.

Definition M (A : Type) : Type := World -> World * (JsError + A).

Definition ret {A} (a : A) : M A := fun w => (w, inr a).

Definition bind {A B} (c : M A) (k : A -> M B) : M B :=
  fun w => match c w with
           | (w', inl e) => (w', inl e)
           | (w', inr a) => k a w'
           end.

Definition throw {A} (e : JsError) : M A := fun w => (w, inl e).

(** [try { body } catch (err) { handler err }] *)
Definition try_catch (body : M unit) (handler : JsError -> M unit) : M unit :=
  fun w => match body w with
           | (w', inl e) => handler e w'
           | (w', inr tt) => (w', inr tt)
           end.

Definition get_store : M Store := fun w => (w, inr (store w)).

Definition put_messages (ms : list Message) : M unit :=
  fun w => ({| store := {| users := users (store w);
                           groups := groups (store w);
                           messages := ms |};
               res := res w |}, inr tt).

Declare Scope js_scope.
Delimit Scope js_scope with js.
Notation "x <- c ;; k" := (bind c (fun x => k))
  (at level 100, c at next level, right associativity) : js_scope.
Notation "c ;;; k" := (bind c (fun _ => k))
  (at level 100, right associativity) : js_scope.
Local Open Scope js_scope.

(** ** Property access *)

(** The data properties the source reads.  A Query object has no [_id], the
    response object has no [res]: reading them gives [undefined]. *)
Definition own_property (v : Value) (p : string) : Value :=
  match v with
  | VUser u => if String.eqb p "_id" then VObjectId (u_id u)
               else if String.eqb p "username" then VString (username u)
               else if String.eqb p "displayName" then VString (displayName u)
               else VUndefined
  | VGroup g => if String.eqb p "_id" then VObjectId (g_id g)
                else if String.eqb p "adminId" then VObjectId (adminId g)
                else if String.eqb p "name" then VString (name g)
                else VUndefined
  | _ => VUndefined
  end.

(** [v.p]: a TypeError on [undefined] and [null]. *)
Definition get_prop (v : Value) (p : string) : M Value :=
  match v with
  | VUndefined | VNull => throw (TypeError p)
  | _ => ret (own_property v p)
  end.

(** [a === b]: primitives by value, objects by identity; two ObjectId objects
    read from two different documents are different objects. *)
Definition strict_eq (a b : Value) : bool :=
  match a, b with
  | VUndefined, VUndefined => true
  | VNull, VNull => true
  | VString s, VString t => String.eqb s t
  | VRes, VRes => true
  | _, _ => false
  end.

(** ** Mongoose *)

(** A filter entry after casting: [undefined] and [null] are not cast and are
    sent as null, which matches an absent field. *)
Inductive Cond :=
| IsNull
| Equals (o : ObjectId).

Definition cast_cond (path : string) (v : Value) : M Cond :=
  match v with
  | VUndefined | VNull => ret IsNull
  | VString s => match castObjectId s with
                 | Some o => ret (Equals o)
                 | None => throw (CastError path)
                 end
  | VObjectId o => ret (Equals o)
  | _ => throw (CastError path)
  end.

(** An optional filter key: [None] is a key that the filter does not have. *)
Definition cast_opt (path : string) (v : option Value) : M (option Cond) :=
  match v with
  | None => ret None
  | Some v => c <- cast_cond path v ;; ret (Some c)
  end.

Definition holds_id (c : Cond) (o : ObjectId) : bool :=
  match c with
  | IsNull => false
  | Equals o' => String.eqb o' o
  end.

Definition holds_opt_id (c : Cond) (o : option ObjectId) : bool :=
  match c, o with
  | IsNull, None => true
  | Equals o', Some o => String.eqb o' o
  | _, _ => false
  end.

Definition holds_in (c : Cond) (os : list ObjectId) : bool :=
  match c with
  | IsNull => false
  | Equals o' => existsb (String.eqb o') os
  end.

Definition opt_holds {A} (h : Cond -> A -> bool) (c : option Cond) (a : A) : bool :=
  match c with
  | None => true
  | Some c => h c a
  end.

(** [User.findOne({username})] only builds a query; [await] runs it. *)
Definition User_findOne (uname : string) : Value := VQuery (QUserFindOne uname).

Definition exec_query (q : Query) : M Value :=
  match q with
  | QUserFindOne uname =>
      st <- get_store ;;
      ret (match find (fun u => String.eqb (username u) uname) (users st) with
           | Some u => VUser u
           | None => VNull
           end)
  end.

(** [await v]: a query is executed, any other value is returned as it is. *)
Definition await (v : Value) : M Value :=
  match v with
  | VQuery q => exec_query q
  | _ => ret v
  end.

(** [Group.find({_id, members})] and [Group.findOne({_id, members})]. *)
Definition group_matches (cid cmem : Cond) (g : Group) : bool :=
  holds_id cid (g_id g) && holds_in cmem (members g).

Definition Group_find (id mem : Value) : M (list Group) :=
  cid <- cast_cond "_id" id ;;
  cmem <- cast_cond "members" mem ;;
  st <- get_store ;;
  ret (filter (group_matches cid cmem) (groups st)).

Definition Group_findOne (id mem : Value) : M (option Group) :=
  cid <- cast_cond "_id" id ;;
  cmem <- cast_cond "members" mem ;;
  st <- get_store ;;
  ret (find (group_matches cid cmem) (groups st)).

(** Message filters.  [f_messageId] is the key [messageId] of the filter in
    the fetch-one handler: it names no path of the schema and no stored
    document has such a field, so only a null value matches it. *)
Record MessageFilter := mkFilter {
  f_id : option Value;
  f_groupId : option Value;
  f_senderId : option Value;
  f_messageId : option Value
}.

Record MessageCond := mkCond {
  c_id : option Cond;
  c_groupId : option Cond;
  c_senderId : option Cond;
  c_messageId : option Value
}.

Definition cast_filter (f : MessageFilter) : M MessageCond :=
  cid <- cast_opt "_id" (f_id f) ;;
  cg <- cast_opt "groupId" (f_groupId f) ;;
  cs <- cast_opt "senderId" (f_senderId f) ;;
  ret {| c_id := cid; c_groupId := cg; c_senderId := cs;
         c_messageId := f_messageId f |}.

Definition no_such_field (v : option Value) : bool :=
  match v with
  | None | Some VUndefined | Some VNull => true
  | Some _ => false
  end.

Definition message_matches (c : MessageCond) (m : Message) : bool :=
  opt_holds holds_id (c_id c) (m_id m)
  && opt_holds holds_id (c_groupId c) (groupId m)
  && opt_holds holds_opt_id (c_senderId c) (senderId m)
  && no_such_field (c_messageId c).

(** [.sort({dateSent: 1})]: a stable ascending sort on [dateSent]. *)
Fixpoint insert_by_date (m : Message) (l : list Message) : list Message :=
  match l with
  | [] => [m]
  | x :: r => if dateSent m <? dateSent x then m :: x :: r
              else x :: insert_by_date m r
  end.

Definition sort_by_date (l : list Message) : list Message :=
  fold_right insert_by_date [] l.

Definition Message_find_sorted (f : MessageFilter) : M (list Message) :=
  c <- cast_filter f ;;
  st <- get_store ;;
  ret (sort_by_date (filter (message_matches c) (messages st))).

(** Sorting leaves the first element of a [findOne] to be the least by date. *)
Definition Message_findOne_sorted (f : MessageFilter) : M (option Message) :=
  c <- cast_filter f ;;
  st <- get_store ;;
  ret (hd_error (sort_by_date (filter (message_matches c) (messages st)))).

(** [findOneAndDelete]: removes the first match and returns it, or null. *)
Fixpoint remove_first (p : Message -> bool) (l : list Message) : list Message :=
  match l with
  | [] => []
  | x :: r => if p x then r else x :: remove_first p r
  end.

Definition Message_findOneAndDelete (f : MessageFilter) : M (option Message) :=
  c <- cast_filter f ;;
  st <- get_store ;;
  put_messages (remove_first (message_matches c) (messages st)) ;;;
  ret (find (message_matches c) (messages st)).

(** [findOneAndUpdate(filter, {content, edited: true})] without the [new]
    option: updates the first match and returns the document as it was
    before the update, or null. *)
Definition set_content (c : string) (m : Message) : Message :=
  {| m_id := m_id m; groupId := groupId m; senderId := senderId m;
     content := c; dateSent := dateSent m; edited := true |}.

Fixpoint update_first (p : Message -> bool) (f : Message -> Message)
         (l : list Message) : list Message :=
  match l with
  | [] => []
  | x :: r => if p x then f x :: r else x :: update_first p f r
  end.

Definition Message_findOneAndUpdate (f : MessageFilter) (c : string)
  : M (option Message) :=
  cnd <- cast_filter f ;;
  st <- get_store ;;
  put_messages (update_first (message_matches cnd) (set_content c) (messages st)) ;;;
  ret (find (message_matches cnd) (messages st)).

(** What a request brings with it besides the request itself: the Message
    schema, the id the driver generates for a new document and the clock. *)
Record Runtime := mkRuntime {
  schema : MessageSchema;
  fresh_id : ObjectId;
  now : Z
}.

(** [new Message({groupId, senderId, content, edited}).save()].
    An [undefined] value leaves the field absent.  A value that cannot be
    cast and a required field that is absent (for a string: empty) are
    reported together by [save] as one validation error; [groupId] has to be
    present for the document to be a message of a group.  The sent date is
    the time of creation. *)
Definition cast_field (v : Value) : option (option ObjectId) :=
  match v with
  | VUndefined | VNull => Some None
  | VString s => match castObjectId s with
                 | Some o => Some (Some o)
                 | None => None
                 end
  | VObjectId o => Some (Some o)
  | _ => None
  end.

Definition invalid_paths (sc : MessageSchema) (g s : option (option ObjectId))
           (c : string) : list string :=
  (match g with Some (Some _) => [] | _ => ["groupId"%string] end)
  ++ (match s with
      | None => ["senderId"%string]
      | Some None => if senderId_required sc then ["senderId"%string] else []
      | Some (Some _) => []
      end)
  ++ (if content_required sc && String.eqb c "" then ["content"%string] else []).

Definition Message_save (cfg : Runtime) (g s : Value) (c : string) (e : bool)
  : M Message :=
  match cast_field g, cast_field s, invalid_paths (schema cfg) (cast_field g) (cast_field s) c with
  | Some (Some gid), Some sid, [] =>
      st <- get_store ;;
      if existsb (fun m => String.eqb (m_id m) (fresh_id cfg)) (messages st)
      then throw (MongoError 11000)
      else
        let doc := {| m_id := fresh_id cfg; groupId := gid; senderId := sid;
                      content := c; dateSent := now cfg; edited := e |} in
        put_messages (messages st ++ [doc]) ;;;
        ret doc
  | _, _, paths => throw (ValidationError paths)
  end.

(** ** Express *)

(** [res.status(code)] sets the status and returns the response object. *)
Definition res_status (code : Z) : M Value :=
  fun w => ({| store := store w;
               res := {| statusCode := code; sentBody := sentBody (res w) |} |},
            inr VRes).

(** [target.send(body)] and [target.json(body)]: the method is looked up on
    [target] first, which throws when [target] is [undefined] or [null] and
    finds no such function on anything but the response object. *)
Definition call_send (meth : string) (target : Value) (b : Body) : M unit :=
  match target with
  | VRes => fun w => ({| store := store w;
                         res := {| statusCode := statusCode (res w);
                                   sentBody := Some b |} |}, inr tt)
  | _ => throw (TypeError meth)
  end.

Definition res_send := call_send "send".
Definition res_json := call_send "json".

Record Request := mkRequest {
  params : list (string * string);   (* req.params *)
  body_content : string;             (* req.body.content *)
  user_username : string             (* req.user.username *)
}.

(** Destructuring [req.params]: a name the route does not bind is [undefined]. *)
Definition param (req : Request) (k : string) : Value :=
  match find (fun kv => String.eqb (fst kv) k) (params req) with
  | Some kv => VString (snd kv)
  | None => VUndefined
  end.

Definition doc_value (g : option Group) : Value :=
  match g with
  | Some g => VGroup g
  | None => VNull
  end.

(** The [catch] block shared by the five handlers. *)
Definition report_error (err : JsError) : M unit :=
  r <- res_status 500 ;;
  res_send r (Failure err).

(** ** The handlers *)

Section Handlers.

Variable cfg : Runtime.

(** GET /:groupId *)
Definition listMessages (req : Request) : M unit :=
  let groupId := param req "groupId" in
  let username := user_username req in
  try_catch
    (q <- get_prop (User_findOne username) "_id" ;;
     userId <- await q ;;
     _ <- Group_find groupId userId ;;
     messages <- Message_find_sorted
                   {| f_id := None; f_groupId := Some groupId;
                      f_senderId := None; f_messageId := None |} ;;
     r <- res_status 200 ;;
     r' <- get_prop r "res" ;;
     res_json r' (Success (DataMessages messages)))
    report_error.

(** The second GET /:groupId, documented as GET /:groupId/:messageId *)
Definition getMessage (req : Request) : M unit :=
  let groupId := param req "groupId" in
  let messageId := param req "messageId" in
  let username := user_username req in
  try_catch
    (q <- get_prop (User_findOne username) "_id" ;;
     userId <- await q ;;
     _ <- Group_find groupId userId ;;
     message <- Message_findOne_sorted
                  {| f_id := Some groupId; f_groupId := None;
                     f_senderId := None; f_messageId := Some messageId |} ;;
     r <- res_status 200 ;;
     r' <- get_prop r "res" ;;
     res_json r' (Success (DataMessage message)))
    report_error.

(** POST /:groupId *)
Definition createMessage (req : Request) : M unit :=
  let groupId := param req "groupId" in
  let content := body_content req in
  let username := user_username req in
  try_catch
    (q <- get_prop (User_findOne username) "_id" ;;
     senderId <- await q ;;
     _ <- Group_findOne groupId senderId ;;
     newMessage <- Message_save cfg groupId senderId content false ;;
     r <- res_status 201 ;;
     res_json r (Success (DataMessage (Some newMessage))))
    report_error.

(** DELETE /:groupId/:messageId *)
Definition deleteMessage (req : Request) : M unit :=
  let groupId := param req "groupId" in
  let messageId := param req "messageId" in
  let username := user_username req in
  try_catch
    (q <- get_prop (User_findOne username) "_id" ;;
     currentUser <- await q ;;
     cid <- get_prop currentUser "_id" ;;
     g <- Group_findOne groupId cid ;;
     let group := doc_value g in
     admin <- get_prop group "adminId" ;;
     cid' <- get_prop currentUser "_id" ;;
     (if strict_eq admin cid' then
        gid <- get_prop group "_id" ;;
        _ <- Message_findOneAndDelete
               {| f_id := Some messageId; f_groupId := Some gid;
                  f_senderId := None; f_messageId := None |} ;;
        ret tt
      else
        gid <- get_prop group "_id" ;;
        (* senderId: userId, and no userId is in scope *)
        throw (ReferenceError "userId")) ;;;
     r <- res_status 204 ;;
     res_send r (Success NoData))
    report_error.

(** PATCH /:groupId/:messageId *)
Definition updateMessage (req : Request) : M unit :=
  let groupId := param req "groupId" in
  let messageId := param req "messageId" in
  let content := body_content req in
  let username := user_username req in
  try_catch
    (q <- get_prop (User_findOne username) "_id" ;;
     senderId <- await q ;;
     _ <- Group_findOne groupId senderId ;;
     message <- Message_findOneAndUpdate
                  {| f_id := Some messageId; f_groupId := Some groupId;
                     f_senderId := Some senderId; f_messageId := None |}
                  content ;;
     r <- res_status 200 ;;
     res_send r (Success (DataMessage message)))
    report_error.

(** ** The router *)

Inductive Method := GET | POST | DELETE | PATCH.

Definition Method_eqb (a b : Method) : bool :=
  match a, b with
  | GET, GET | POST, POST | DELETE, DELETE | PATCH, PATCH => true
  | _, _ => false
  end.

Record HttpRequest := mkHttp {
  method : Method;
  path : list string;        (* the segments below /api/messages *)
  http_content : string;
  session_username : string
}.

Record Route := mkRoute {
  r_method : Method;
  r_pattern : list string;   (* "/:groupId/:messageId" is ["groupId"; "messageId"] *)
  r_handler : Request -> M unit
}.

(** The routes in the order of their registration. *)
Definition router : list Route :=
  [ {| r_method := GET; r_pattern := ["groupId"%string]; r_handler := listMessages |};
    {| r_method := GET; r_pattern := ["groupId"%string]; r_handler := getMessage |};
    {| r_method := POST; r_pattern := ["groupId"%string]; r_handler := createMessage |};
    {| r_method := DELETE; r_pattern := ["groupId"%string; "messageId"%string];
       r_handler := deleteMessage |};
    {| r_method := PATCH; r_pattern := ["groupId"%string; "messageId"%string];
       r_handler := updateMessage |} ].

Definition route_request (r : Route) (h : HttpRequest) : option Request :=
  if Method_eqb (r_method r) (method h)
     && (List.length (r_pattern r) =? List.length (path h))%nat
  then Some {| params := combine (r_pattern r) (path h);
               body_content := http_content h;
               user_username := session_username h |}
  else None.

(** The first route that matches handles the request; no handler calls
    [next], so a later route on the same path is never tried.  [None]: no
    route of this router matches and the request is passed on. *)
Fixpoint dispatch (rs : list Route) (h : HttpRequest) : option (M unit) :=
  match rs with
  | [] => None
  | r :: rs' => match route_request r h with
                | Some req => Some (r_handler r req)
                | None => dispatch rs' h
                end
  end.

End Handlers.

(** Running a handler on a store: the store it leaves and the response. *)
Definition run (c : M unit) (st : Store) : Store * Res :=
  let w := fst (c {| store := st; res := fresh_res |}) in
  (store w, res w).

Definition serve (cfg : Runtime) (st : Store) (h : HttpRequest)
  : option (Store * Res) :=
  match dispatch (router cfg) h with
  | Some c => Some (run c st)
  | None => None
  end.

(** ** The vocabulary of the specification *)

(** The error kinds of section 7 of the specification. *)
Inductive ErrorKind := NotFound | Forbidden | Validation | StoreUnavailable.

Definition ErrorKind_eqb (a b : ErrorKind) : bool :=
  match a, b with
  | NotFound, NotFound | Forbidden, Forbidden
  | Validation, Validation | StoreUnavailable, StoreUnavailable => true
  | _, _ => false
  end.

(** The handlers send the raw error.  A Mongoose validation or cast error is
    a missing or malformed field, a driver error is a persistence failure;
    a TypeError or ReferenceError of the handler's own code is none of the
    kinds, and nothing the handlers can throw is a NotFound or a Forbidden. *)
Definition kind_of_error (e : JsError) : option ErrorKind :=
  match e with
  | ValidationError _ | CastError _ => Some Validation
  | MongoError _ => Some StoreUnavailable
  | TypeError _ | ReferenceError _ => None
  end.

Definition fails_with (r : Res) (k : ErrorKind) : bool :=
  match sentBody r with
  | Some (Failure e) => match kind_of_error e with
                        | Some k' => ErrorKind_eqb k' k
                        | None => false
                        end
  | _ => false
  end.

Definition succeeds (r : Res) : bool :=
  match sentBody r with
  | Some (Success _) => true
  | _ => false
  end.

(** A filter value that Mongoose casts without error. *)
Definition castable (v : Value) : bool :=
  match v with
  | VUndefined | VNull | VObjectId _ => true
  | VString s => match castObjectId s with Some _ => true | None => false end
  | _ => false
  end.

Definition failure (e : JsError) : Res :=
  {| statusCode := 500; sentBody := Some (Failure e) |}.

Definition answer (code : Z) (d : Payload) : Res :=
  {| statusCode := code; sentBody := Some (Success d) |}.

(** The filter of the update handler after casting, for well-formed ids:
    the sender entry is [undefined], hence the null condition. *)
Definition update_cond (g mid : ObjectId) : MessageCond :=
  {| c_id := Some (Equals mid); c_groupId := Some (Equals g);
     c_senderId := Some IsNull; c_messageId := None |}.

(** The same request in the session of another user. *)
Definition as_user (req : Request) (uname : string) : Request :=
  {| params := params req; body_content := body_content req;
     user_username := uname |}.

(** Ascending by sent date. *)
Definition by_date (a b : Message) : Prop := dateSent a <= dateSent b.

(** ** A small group, used for the concrete runs *)

Module Team.

Local Open Scope string_scope.

Definition team_id : ObjectId := "aaaaaaaaaaaaaaaaaaaaaaaa".
Definition alice_id : ObjectId := "000000000000000000000001".
Definition bob_id : ObjectId := "000000000000000000000002".
Definition carol_id : ObjectId := "000000000000000000000003".
Definition mallory_id : ObjectId := "000000000000000000000004".
Definition hello_id : ObjectId := "111111111111111111111111".
Definition note_id : ObjectId := "222222222222222222222222".
Definition new_id : ObjectId := "333333333333333333333333".
Definition missing_id : ObjectId := "444444444444444444444444".

Definition alice := {| u_id := alice_id; username := "alice"; displayName := "Alice" |}.
Definition bob := {| u_id := bob_id; username := "bob"; displayName := "Bob" |}.
Definition carol := {| u_id := carol_id; username := "carol"; displayName := "Carol" |}.
Definition mallory := {| u_id := mallory_id; username := "mallory"; displayName := "Mallory" |}.

(** Alice is the admin; Alice, Bob and Carol are members; Mallory is not. *)
Definition team : Group :=
  {| g_id := team_id; name := "team"; adminId := alice_id;
     members := [alice_id; bob_id; carol_id]; invitees := [] |}.

(** Bob's message. *)
Definition hello : Message :=
  {| m_id := hello_id; groupId := team_id; senderId := Some bob_id;
     content := "hello"; dateSent := 10; edited := false |}.

(** A message stored without a sender. *)
Definition note : Message :=
  {| m_id := note_id; groupId := team_id; senderId := None;
     content := "note"; dateSent := 11; edited := false |}.

Definition people : list User := [alice; bob; carol; mallory].

Definition quiet : Store := {| users := people; groups := [team]; messages := [] |}.
Definition chat : Store := {| users := people; groups := [team]; messages := [hello] |}.
Definition notes : Store := {| users := people; groups := [team]; messages := [hello; note] |}.

Definition lenient : MessageSchema := {| senderId_required := false; content_required := false |}.
Definition strict : MessageSchema := {| senderId_required := true; content_required := true |}.

Definition at_20 (sc : MessageSchema) : Runtime :=
  {| schema := sc; fresh_id := new_id; now := 20 |}.

Definition http (m : Method) (p : list string) (c : string) (who : User) : HttpRequest :=
  {| method := m; path := p; http_content := c; session_username := username who |}.

End Team.

(** ** Requests as the router sees them *)

(** The requests that some route of the router matches. *)
Definition handled (h : HttpRequest) : bool :=
  match method h, path h with
  | GET, [_] | POST, [_] | DELETE, [_; _] | PATCH, [_; _] => true
  | _, _ => false
  end.

(** The router without its second GET route. *)
Definition live_routes (cfg : Runtime) : list Route :=
  [ {| r_method := GET; r_pattern := ["groupId"%string]; r_handler := listMessages |};
    {| r_method := POST; r_pattern := ["groupId"%string];
       r_handler := createMessage cfg |};
    {| r_method := DELETE; r_pattern := ["groupId"%string; "messageId"%string];
       r_handler := deleteMessage |};
    {| r_method := PATCH; r_pattern := ["groupId"%string; "messageId"%string];
       r_handler := updateMessage |} ].

Definition request1 (g : string) (h : HttpRequest) : Request :=
  {| params := [("groupId"%string, g)];
     body_content := http_content h;
     user_username := session_username h |}.

Definition request2 (g m : string) (h : HttpRequest) : Request :=
  {| params := [("groupId"%string, g); ("messageId"%string, m)];
     body_content := http_content h;
     user_username := session_username h |}.

Definition in_session (h : HttpRequest) (who : string) : HttpRequest :=
  {| method := method h; path := path h; http_content := http_content h;
     session_username := who |}.

(** ** What a request does to the message collection *)

Definition with_messages (st : Store) (ms : list Message) : Store :=
  {| users := users st; groups := groups st; messages := ms |}.

Definition id_in_use (o : ObjectId) (ms : list Message) : bool :=
  existsb (fun m => String.eqb (m_id m) o) ms.

(** The document that the create handler saves. *)
Definition new_message (cfg : Runtime) (g : ObjectId) (c : string) : Message :=
  {| m_id := fresh_id cfg; groupId := g; senderId := None; content := c;
     dateSent := now cfg; edited := false |}.

Definition Effect : Type := list Message -> list Message * Res.

Definition refuse (e : JsError) : Effect := fun ms => (ms, failure e).

Definition create_effect (cfg : Runtime) (g : ObjectId) (c : string) : Effect :=
  fun ms =>
    if id_in_use (fresh_id cfg) ms then (ms, failure (MongoError 11000))
    else (ms ++ [new_message cfg g c],
          answer 201 (DataMessage (Some (new_message cfg g c)))).

Definition update_effect (cnd : MessageCond) (c : string) : Effect :=
  fun ms => (update_first (message_matches cnd) (set_content c) ms,
             answer 200 (DataMessage (find (message_matches cnd) ms))).

Definition apply_effect (eff : Effect) (st : Store) : Store * Res :=
  (with_messages st (fst (eff (messages st))), snd (eff (messages st))).

(** The three shapes the effect of a request can have. *)
Inductive Shape (cfg : Runtime) (c : string) : Effect -> Prop :=
| Shape_refuse (e : JsError) : Shape cfg c (refuse e)
| Shape_create (g : ObjectId) : Shape cfg c (create_effect cfg g c)
| Shape_update (cnd : MessageCond) :
    c_senderId cnd = Some IsNull -> Shape cfg c (update_effect cnd c).

(** What the routes never write: id, group, sender and sent date. *)
Definition fixed_part (m : Message) : ObjectId * ObjectId * option ObjectId * Z :=
  (m_id m, groupId m, senderId m, dateSent m).

Definition has_sender (m : Message) : bool :=
  match senderId m with
  | Some _ => true
  | None => false
  end.

(** What an observer of the message collection sees of a served request. *)
Definition seen (p : option (Store * Res)) : option (list Message * Res) :=
  option_map (fun sr => (messages (fst sr), snd sr)) p.

(** ** The chat page

    The client part of the file: the chat feed and its submit button.  The
    page talks to the router through [fetch]; the routes under [/api/users],
    the socket server and the date formatting of [moment] are not among the
    sources and are parameters of the page. *)

Record ChatLine := mkLine {
  line_content : string;
  line_sender : string;
  line_date : string
}.

Definition dq : string := String (ascii_of_nat 34) EmptyString.

(** The [innerHTML] of the div that [outputMessage] appends to the feed. *)
Definition message_markup (m : ChatLine) : string :=
  ("<p class=" ++ dq ++ "text" ++ dq ++ ">" ++ line_content m
   ++ "</p><p class=" ++ dq ++ "meta" ++ dq ++ ">" ++ line_sender m
   ++ " <span>" ++ line_date m ++ "</span></p>")%string.

(** The feed is the list of the markups of its children. *)
Definition outputMessage (m : ChatLine) (feed : list string) : list string :=
  feed ++ [message_markup m].

Inductive PageError :=
| NotIterable                    (* for (... of x) on an x that is not iterable *)
| NoSuchProperty (p : string).   (* reading p of undefined *)

Record Page := mkPage {
  chat_input : string;           (* chatInput.value *)
  chat_feed : list string;       (* the children of chat_feed *)
  emitted : list ChatLine        (* what was emitted as chatMessage on the socket *)
}.

Section ChatPage.

(** [moment(date).format("MM/DD/YY h:mm a")] *)
Variable format_date : Z -> string.

(** [GET /api/users/<id>] as [getDisplayNameById] reads it: the display name
    in [data.data], [None] when the answer carries no [data]. *)
Variable display_name_of : string -> option string.

(** [`${senderId}`] in the url: an absent sender prints as undefined. *)
Definition sender_text (m : Message) : string :=
  match senderId m with
  | Some o => o
  | None => "undefined"%string
  end.

(** The loop of [loadMessages] over [data.data]. *)
Fixpoint show_messages (ms : list Message) (feed : list string)
  : list string * option PageError :=
  match ms with
  | [] => (feed, None)
  | m :: rest =>
      match display_name_of (sender_text m) with
      | None => (feed, Some (NoSuchProperty "displayName"))
      | Some sender =>
          show_messages rest
            (outputMessage {| line_content := content m; line_sender := sender;
                              line_date := format_date (dateSent m) |} feed)
      end
  end.

(** [loadMessages], in the session of [who] on the page of group [group]:
    the store after the request, the feed and the error the function ends
    with, if any.  [None]: the request is answered outside this router, or
    not at all. *)
Definition loadMessages (cfg : Runtime) (st : Store) (who group : string)
           (feed : list string)
  : option (Store * (list string * option PageError)) :=
  match serve cfg st {| method := GET; path := [group]; http_content := "";
                        session_username := who |} with
  | Some (st', r) =>
      match sentBody r with
      | Some (Success (DataMessages ms)) => Some (st', show_messages ms feed)
      | Some _ => Some (st', (feed, Some NotIterable))
      | None => None
      end
  | None => None
  end.

(** The click handler of the submit button.  [current_user] is what
    [getCurrentUser] finds: the display name of the session's user, [None]
    when [GET /api/users] carries no [data]; [clock] is [Date.now()]. *)
Definition submit_chat (cfg : Runtime) (st : Store) (who group : string)
           (current_user : option string) (clock : Z) (p : Page)
  : option (Store * Page * option PageError) :=
  match current_user with
  | None => Some (st, p, Some (NoSuchProperty "displayName"))
  | Some sender =>
      let message := {| line_content := chat_input p; line_sender := sender;
                        line_date := format_date clock |} in
      match serve cfg st {| method := POST; path := [group];
                            http_content := chat_input p;
                            session_username := who |} with
      | Some (st', r) =>
          match sentBody r with
          | Some _ => Some (st', {| chat_input := ""; chat_feed := chat_feed p;
                                    emitted := emitted p ++ [message] |}, None)
          | None => None
          end
      | None => None
      end
  end.

End ChatPage.

(** ** Basic facts about the embedding *)

Lemma param_cases (req : Request) (k : string) :
  param req k = VUndefined \/ exists s, param req k = VString s.
Proof.
  unfold param.
  destruct (find (fun kv => String.eqb (fst kv) k) (params req)) as [kv|].
  - right. now exists (snd kv).
  - now left.
Qed.

Lemma store_eta (st : Store) :
  {| users := users st; groups := groups st; messages := messages st |} = st.
Proof. now destruct st. Qed.

(** [sort] of the list query: the result is ascending by sent date and is a
    rearrangement of the documents that were found. *)
Lemma insert_by_date_perm (m : Message) (l : list Message) :
  Permutation (m :: l) (insert_by_date m l).
Proof.
  induction l as [|x r IH]; simpl.
  - apply Permutation_refl.
  - destruct (dateSent m <? dateSent x).
    + apply Permutation_refl.
    + eapply perm_trans; [apply perm_swap | now apply perm_skip].
Qed.

Lemma sort_by_date_perm (l : list Message) : Permutation l (sort_by_date l).
Proof.
  induction l as [|x r IH]; simpl.
  - constructor.
  - eapply perm_trans; [apply perm_skip, IH | apply insert_by_date_perm].
Qed.

Lemma insert_by_date_hd (m a : Message) (l : list Message) :
  by_date a m -> HdRel by_date a l -> HdRel by_date a (insert_by_date m l).
Proof.
  intros Ham Hl. destruct l as [|x r]; simpl.
  - now constructor.
  - destruct (dateSent m <? dateSent x); constructor; trivial.
    now inversion Hl.
Qed.

Lemma insert_by_date_sorted (m : Message) (l : list Message) :
  Sorted by_date l -> Sorted by_date (insert_by_date m l).
Proof.
  induction 1 as [|x r Hr IH Hhd]; simpl.
  - repeat constructor.
  - destruct (dateSent m <? dateSent x) eqn:E.
    + apply Z.ltb_lt in E. repeat constructor; trivial.
      unfold by_date. lia.
    + apply Z.ltb_ge in E. constructor; trivial.
      now apply insert_by_date_hd.
Qed.

Lemma sort_by_date_sorted (l : list Message) : Sorted by_date (sort_by_date l).
Proof.
  induction l as [|x r IH]; simpl.
  - constructor.
  - now apply insert_by_date_sorted.
Qed.

Ltac param_split req k :=
  let s := fresh "s" in
  destruct (param_cases req k) as [-> | [s ->]].

(** The caller's id as the handlers compute it: the [_id] of the query
    object, which is [undefined], and the query is never run. *)
Lemma caller_id_undefined (uname : string) (w : World) :
  bind (get_prop (User_findOne uname) "_id") await w = (w, inr VUndefined).
Proof. reflexivity. Qed.

(** The delete handler throws while it builds the group filter, on any
    request and any store. *)
Lemma deleteMessage_throws (st : Store) (req : Request) :
  run (deleteMessage req) st = (st, failure (TypeError "_id")).
Proof. reflexivity. Qed.

Lemma listMessages_run (st : Store) (req : Request) :
  run (listMessages req) st =
  (st, failure (if castable (param req "groupId")
                then TypeError "json" else CastError "_id")).
Proof.
  unfold listMessages, run. cbv zeta.
  param_split req "groupId"%string.
  - reflexivity.
  - unfold castable, try_catch, bind, Group_find, Message_find_sorted,
      cast_filter, cast_opt, cast_cond.
    cbn. destruct (castObjectId s); reflexivity.
Qed.

Lemma updateMessage_run (st : Store) (req : Request) (gs ms : string)
      (g mid : ObjectId) :
  param req "groupId" = VString gs -> castObjectId gs = Some g ->
  param req "messageId" = VString ms -> castObjectId ms = Some mid ->
  run (updateMessage req) st =
  ({| users := users st; groups := groups st;
      messages := update_first (message_matches (update_cond g mid))
                               (set_content (body_content req)) (messages st) |},
   answer 200 (DataMessage (find (message_matches (update_cond g mid)) (messages st)))).
Proof.
  intros Hg Hgc Hm Hmc.
  unfold updateMessage, run. cbv zeta. rewrite Hg, Hm.
  unfold try_catch, bind, Group_findOne, Message_findOneAndUpdate,
    cast_filter, cast_opt, cast_cond.
  cbn. rewrite Hgc. cbn. rewrite Hmc. reflexivity.
Qed.

Section FirstMatch.

Variable p : Message -> bool.

Lemma update_first_no_match (f : Message -> Message) (l : list Message) :
  (forall x, In x l -> p x = false) -> update_first p f l = l.
Proof.
  induction l as [|x r IH]; intros H; simpl.
  - reflexivity.
  - rewrite (H x (or_introl eq_refl)). f_equal. apply IH.
    intros y Hy. apply H. now right.
Qed.

Lemma find_no_match (l : list Message) :
  (forall x, In x l -> p x = false) -> find p l = None.
Proof.
  induction l as [|x r IH]; intros H; simpl.
  - reflexivity.
  - rewrite (H x (or_introl eq_refl)). apply IH.
    intros y Hy. apply H. now right.
Qed.

End FirstMatch.

(** Ids are unique in a collection: two documents of the list with the same
    id are the same document. *)
Lemma unique_id (l : list Message) (x y : Message) :
  NoDup (map m_id l) -> In x l -> In y l -> m_id x = m_id y -> x = y.
Proof.
  induction l as [|a r IH]; intros Hnd Hx Hy E.
  - destruct Hx.
  - inversion Hnd as [|? ? Hnotin Hnd']; subst.
    destruct Hx as [->|Hx], Hy as [->|Hy].
    + reflexivity.
    + exfalso. apply Hnotin. rewrite E. now apply in_map.
    + exfalso. apply Hnotin. rewrite <- E. now apply in_map.
    + now apply IH.
Qed.

(** A message that records a sender is matched by no update filter. *)
Lemma sender_recorded_no_match (l : list Message) (m : Message) (s g : ObjectId) :
  NoDup (map m_id l) -> In m l -> senderId m = Some s ->
  forall x, In x l -> message_matches (update_cond g (m_id m)) x = false.
Proof.
  intros Hnd Hm Hs x Hx.
  unfold message_matches, update_cond, opt_holds. cbn.
  destruct (String.eqb (m_id m) (m_id x)) eqn:E; [|reflexivity].
  apply String.eqb_eq in E.
  assert (x = m) by (symmetry; eapply unique_id; eauto).
  subst x. rewrite Hs. cbn. now rewrite andb_false_r.
Qed.

Lemma updateMessage_sender_recorded (st : Store) (req : Request)
      (gs ms : string) (g s : ObjectId) (m : Message) :
  NoDup (map m_id (messages st)) ->
  In m (messages st) -> senderId m = Some s ->
  param req "groupId" = VString gs -> castObjectId gs = Some g ->
  param req "messageId" = VString ms -> castObjectId ms = Some (m_id m) ->
  run (updateMessage req) st = (st, answer 200 (DataMessage None)).
Proof.
  intros Hnd Hm Hs Hg Hgc Hmi Hmc.
  rewrite (updateMessage_run st req gs ms g (m_id m)) by assumption.
  pose proof (sender_recorded_no_match _ m s g Hnd Hm Hs) as Hno.
  rewrite update_first_no_match, find_no_match by exact Hno.
  now rewrite store_eta.
Qed.

(** No handler looks at who the caller is. *)
Lemma handlers_ignore_caller (cfg : Runtime) (req : Request) (uname : string) :
  listMessages (as_user req uname) = listMessages req
  /\ getMessage (as_user req uname) = getMessage req
  /\ createMessage cfg (as_user req uname) = createMessage cfg req
  /\ deleteMessage (as_user req uname) = deleteMessage req
  /\ updateMessage (as_user req uname) = updateMessage req.
Proof. repeat split; reflexivity. Qed.

(** A message that the create handler adds has no sender. *)
Lemma Message_save_sender (cfg : Runtime) (g : Value) (c : string) (e : bool)
      (w w' : World) (d : Message) :
  Message_save cfg g VUndefined c e w = (w', inr d) ->
  senderId d = None /\ messages (store w') = messages (store w) ++ [d].
Proof.
  unfold Message_save. cbn.
  destruct (cast_field g) as [[gid|]|]; cbn.
  2:{ destruct (senderId_required (schema cfg)); discriminate. }
  2:{ destruct (senderId_required (schema cfg)); discriminate. }
  destruct (_ ++ _); [|discriminate].
  unfold bind, get_store, put_messages, throw, ret.
  destruct (existsb _ _); [discriminate|].
  intros H. inversion H; subst. cbn. auto.
Qed.

(** ** The claims *)

Import Team.

(** C10. The list route never delivers the message list: on every request
    [GET /:groupId], whoever sends it and whatever the store holds, the
    handler ends in its catch block and answers 500 with [success: false].
    When the group id is well formed both queries succeed and the error is
    the TypeError of calling [json] on [res.status(200).res], which is
    [undefined]; the store is left as it was. *)
Theorem list_route_never_delivers :
  forall (cfg : Runtime) (st : Store) (g content who : string),
    serve cfg st {| method := GET; path := [g]; http_content := content;
                    session_username := who |}
    = Some (st, failure (if castable (VString g)
                         then TypeError "json" else CastError "_id")).
Proof.
  intros cfg st g content who.
  unfold serve. cbn [router dispatch route_request r_method r_pattern method
                     path Method_eqb andb List.length Nat.eqb r_handler].
  now rewrite listMessages_run.
Qed.

(** C8. Listing the messages of a group as one of its members does not
    return them: for Alice, a member and the admin of the team, the answer
    is the failure 500 with a TypeError, on the group without messages
    (where the claim asks for the empty sequence) and on the group with
    Bob's message (where it asks for that message). *)
Theorem list_by_member_fails :
  forall cfg : Runtime,
    existsb (String.eqb alice_id) (members team) = true
    /\ serve cfg quiet (http GET [team_id] "" alice)
       = Some (quiet, failure (TypeError "json"))
    /\ serve cfg chat (http GET [team_id] "" alice)
       = Some (chat, failure (TypeError "json")).
Proof. intros cfg. repeat split; reflexivity. Qed.

(** C9. Fetching one message does not return it.  A request
    [GET /:groupId/:messageId] matches no route of the router, the fetch-one
    handler being registered on [/:groupId] behind the list handler; and the
    handler itself, run on a request that carries both parameters for a
    message that exists, answers the failure 500 with a TypeError. *)
Theorem fetch_one_never_answers :
  forall cfg : Runtime,
    serve cfg chat (http GET [team_id; hello_id] "" alice) = None
    /\ run (getMessage {| params := [("groupId"%string, team_id);
                                     ("messageId"%string, hello_id)];
                          body_content := ""; user_username := "alice" |}) chat
       = (chat, failure (TypeError "json")).
Proof. intros cfg. split; reflexivity. Qed.

(** C2. Deleting a message does not delete it, neither for the admin nor
    for the sender: Alice, the admin, and Bob, the sender, each get the
    failure 500 with a TypeError for Bob's message, which stays in the
    store. *)
Theorem delete_by_admin_or_sender_fails :
  forall cfg : Runtime,
    adminId team = alice_id /\ senderId hello = Some bob_id
    /\ serve cfg chat (http DELETE [team_id; hello_id] "" alice)
       = Some (chat, failure (TypeError "_id"))
    /\ serve cfg chat (http DELETE [team_id; hello_id] "" bob)
       = Some (chat, failure (TypeError "_id")).
Proof. intros cfg. repeat split; reflexivity. Qed.

(** C4. An update by the sender does not change the message: Bob's update
    of his own message is answered 200 with [data: null] and the stored
    content and edited flag stay as they were.  Where an update does apply
    (the message stored without a sender), the answer carries the document
    as it was before the update, with the old content and [edited] false. *)
Theorem update_by_sender_changes_nothing :
  forall cfg : Runtime,
    serve cfg chat (http PATCH [team_id; hello_id] "hi" bob)
    = Some (chat, answer 200 (DataMessage None))
    /\ serve cfg notes (http PATCH [team_id; note_id] "hi" carol)
       = Some ({| users := people; groups := [team];
                  messages := [hello; set_content "hi" note] |},
               answer 200 (DataMessage (Some note))).
Proof. intros cfg. split; reflexivity. Qed.

(** C6. A message created by a member does not record the member as its
    sender: Alice's message is stored with no sender when the schema does
    not require one, and is rejected with a validation error on [senderId],
    nothing being stored, when the schema requires one. *)
Theorem create_by_member_has_no_sender :
  serve (at_20 lenient) quiet (http POST [team_id] "hello" alice)
  = Some ({| users := people; groups := [team];
             messages := [ {| m_id := new_id; groupId := team_id;
                              senderId := None; content := "hello";
                              dateSent := 20; edited := false |} ] |},
          answer 201 (DataMessage (Some {| m_id := new_id; groupId := team_id;
                                           senderId := None; content := "hello";
                                           dateSent := 20; edited := false |})))
  /\ serve (at_20 strict) quiet (http POST [team_id] "hello" alice)
     = Some (quiet, failure (ValidationError ["senderId"%string])).
Proof. split; reflexivity. Qed.

(** C1. A user who is not a member of the group is served like a member.
    Mallory is not in the team; her create request stores a message in the
    team and is answered 201, her update of a message of the team changes
    it and is answered 200, and her update of Bob's message is answered 200
    with [success: true]; none of the answers is a failure. *)
Theorem non_member_is_served :
  existsb (String.eqb mallory_id) (members team) = false
  /\ serve (at_20 lenient) chat (http POST [team_id] "hi" mallory)
     = Some ({| users := people; groups := [team];
                messages := [hello; {| m_id := new_id; groupId := team_id;
                                       senderId := None; content := "hi";
                                       dateSent := 20; edited := false |}] |},
             answer 201 (DataMessage (Some {| m_id := new_id; groupId := team_id;
                                              senderId := None; content := "hi";
                                              dateSent := 20; edited := false |})))
  /\ serve (at_20 strict) notes (http PATCH [team_id; note_id] "mine" mallory)
     = Some ({| users := people; groups := [team];
                messages := [hello; set_content "mine" note] |},
             answer 200 (DataMessage (Some note)))
  /\ serve (at_20 strict) chat (http PATCH [team_id; hello_id] "mine" mallory)
     = Some (chat, answer 200 (DataMessage None)).
Proof. repeat split; reflexivity. Qed.

(** C3, as stated, fails: the update of Bob's message by Alice, the admin
    and not the sender, is not refused with Forbidden; it is answered 200
    with [success: true] and [data: null]. *)
Lemma update_by_admin_is_answered_200 :
  adminId team = alice_id
  /\ senderId hello = Some bob_id
  /\ serve (at_20 strict) chat (http PATCH [team_id; hello_id] "by the admin" alice)
     = Some (chat, answer 200 (DataMessage None))
  /\ succeeds (answer 200 (DataMessage None)) = true
  /\ fails_with (answer 200 (DataMessage None)) Forbidden = false.
Proof. repeat split; reflexivity. Qed.

(** C3, amended.  For every message of the group that records a sender, an
    update request by a caller other than that sender, the group admin
    included, leaves the store unchanged; it is answered 200 with
    [success: true] and [data: null], not with Forbidden.  (Ids are unique
    in the collection and the two ids of the request are well formed.) *)
Theorem update_by_other_caller_leaves_message :
  forall (cfg : Runtime) (st : Store) (gs ms content who : string)
         (m : Message) (s : ObjectId),
    NoDup (map m_id (messages st)) ->
    In m (messages st) ->
    senderId m = Some s ->
    castObjectId gs = Some (groupId m) ->
    castObjectId ms = Some (m_id m) ->
    (forall u, In u (users st) -> username u = who -> u_id u <> s) ->
    serve cfg st {| method := PATCH; path := [gs; ms]; http_content := content;
                    session_username := who |}
    = Some (st, answer 200 (DataMessage None)).
Proof.
  intros cfg st gs ms content who m s Hnd Hin Hs Hg Hm _.
  unfold serve. cbn [router dispatch route_request r_method r_pattern method
                     path Method_eqb andb List.length Nat.eqb r_handler combine].
  f_equal.
  eapply updateMessage_sender_recorded with (gs := gs) (ms := ms); eauto.
Qed.

Lemma update_by_other_caller_leaves_message_witness :
  In hello (messages chat)
  /\ senderId hello = Some bob_id
  /\ u_id alice <> bob_id
  /\ serve (at_20 strict) chat (http PATCH [team_id; hello_id] "by the admin" alice)
     = Some (chat, answer 200 (DataMessage None)).
Proof.
  split; [simpl; tauto | split; [reflexivity | split; [discriminate |]]].
  apply (update_by_other_caller_leaves_message
           (at_20 strict) chat team_id hello_id "by the admin" "alice" hello bob_id).
  - repeat constructor. simpl. tauto.
  - simpl. tauto.
  - reflexivity.
  - reflexivity.
  - reflexivity.
  - intros u Hu Hname.
    simpl in Hu.
    destruct Hu as [<-|[<-|[<-|[<-|[]]]]]; simpl in Hname; discriminate.
Defined.

(** C5, as stated, fails: the delete of an id that names no message of the
    group is answered with the TypeError of the handler's own code, which
    is not a NotFound. *)
Lemma delete_of_missing_is_not_NotFound :
  existsb (fun m => String.eqb (m_id m) missing_id) (messages chat) = false
  /\ serve (at_20 strict) chat (http DELETE [team_id; missing_id] "" alice)
     = Some (chat, failure (TypeError "_id"))
  /\ fails_with (failure (TypeError "_id")) NotFound = false.
Proof. repeat split; reflexivity. Qed.

(** C5, amended.  The delete route has no NotFound outcome and does not
    tell a missing message from one that exists: on two stores with the
    same users and groups, whatever their messages, a delete request gets
    the same answer; no answer is a NotFound failure; and the same request
    sent a second time is answered as it was the first time. *)
Theorem delete_answer_ignores_existence :
  forall (cfg : Runtime) (st st' : Store) (gs ms content who : string),
    users st = users st' ->
    groups st = groups st' ->
    let h := {| method := DELETE; path := [gs; ms]; http_content := content;
                session_username := who |} in
    option_map snd (serve cfg st h) = option_map snd (serve cfg st' h)
    /\ (exists r, option_map snd (serve cfg st h) = Some r
                  /\ fails_with r NotFound = false)
    /\ match serve cfg st h with
       | Some (st1, r1) => option_map snd (serve cfg st1 h) = Some r1
       | None => False
       end.
Proof.
  intros cfg st st' gs ms content who _ _ h.
  unfold serve, h.
  cbn [router dispatch route_request r_method r_pattern method
       path Method_eqb andb List.length Nat.eqb r_handler combine].
  rewrite !deleteMessage_throws.
  cbn [option_map snd].
  split; [reflexivity | split].
  - exists (failure (TypeError "_id")). split; reflexivity.
  - reflexivity.
Qed.

Lemma delete_answer_ignores_existence_witness :
  users chat = users quiet
  /\ groups chat = groups quiet
  /\ option_map snd (serve (at_20 strict) chat (http DELETE [team_id; hello_id] "" alice))
     = option_map snd (serve (at_20 strict) quiet (http DELETE [team_id; hello_id] "" alice)).
Proof.
  split; [reflexivity | split; [reflexivity |]].
  apply (delete_answer_ignores_existence
           (at_20 strict) chat quiet team_id hello_id "" "alice");
    reflexivity.
Defined.

(** C7.  With a Message schema that requires [content], as the
    specification has it, a create request with empty content is rejected:
    it is answered 500 with a validation error (a cast error when the group
    id is malformed) and the store is left as it was. *)
Theorem create_with_empty_content_rejected :
  forall (cfg : Runtime) (st : Store) (g who : string),
    content_required (schema cfg) = true ->
    exists r,
      serve cfg st {| method := POST; path := [g]; http_content := "";
                      session_username := who |} = Some (st, r)
      /\ statusCode r = 500
      /\ fails_with r Validation = true.
Proof.
  intros cfg st g who Hreq.
  unfold serve.
  cbn [router dispatch route_request r_method r_pattern method
       path Method_eqb andb List.length Nat.eqb r_handler combine].
  unfold run, createMessage. cbv zeta.
  unfold try_catch, bind, Group_findOne, Message_save, cast_cond, invalid_paths.
  cbn. rewrite Hreq.
  destruct (castObjectId g) as [o|]; cbn.
  - destruct (senderId_required (schema cfg)); cbn;
      eexists; (split; [reflexivity | split; reflexivity]).
  - eexists; (split; [reflexivity | split; reflexivity]).
Qed.

Lemma create_with_empty_content_rejected_witness :
  exists r,
    serve (at_20 spec_schema) chat (http POST [team_id] "" alice) = Some (chat, r)
    /\ statusCode r = 500
    /\ fails_with r Validation = true.
Proof.
  apply (create_with_empty_content_rejected (at_20 spec_schema) chat team_id "alice").
  reflexivity.
Defined.

(** ** The router as a whole *)

Lemma serve_cases (cfg : Runtime) (st : Store) (h : HttpRequest) :
  serve cfg st h =
  match method h, path h with
  | GET, [g] => Some (run (listMessages (request1 g h)) st)
  | POST, [g] => Some (run (createMessage cfg (request1 g h)) st)
  | DELETE, [g; m] => Some (run (deleteMessage (request2 g m h)) st)
  | PATCH, [g; m] => Some (run (updateMessage (request2 g m h)) st)
  | _, _ => None
  end.
Proof.
  destruct h as [m p c w].
  destruct m; destruct p as [|a [|b [|d r]]]; reflexivity.
Qed.

Lemma apply_refuse (e : JsError) (st : Store) :
  apply_effect (refuse e) st = (st, failure e).
Proof. unfold apply_effect, refuse, with_messages. cbn. now rewrite store_eta. Qed.

(** X3. The fetch-one handler, on whatever request and store it is run, ends in
    its catch block: it answers 500, with the TypeError of its send
    statement when the group id can be cast and with the cast error
    otherwise, and leaves the store as it was. *)
Theorem fetch_one_handler_always_fails (st : Store) (req : Request) :
  run (getMessage req) st =
  (st, failure (if castable (param req "groupId")
                then TypeError "json" else CastError "_id")).
Proof.
  unfold getMessage, run. cbv zeta.
  param_split req "groupId"%string.
  - param_split req "messageId"%string; reflexivity.
  - unfold castable, try_catch, bind, Group_find, Message_findOne_sorted,
      cast_filter, cast_opt, cast_cond.
    cbn. destruct (castObjectId s); reflexivity.
Qed.

(** The effect of a create request is fixed by the request alone. *)
Lemma createMessage_shape (cfg : Runtime) (req : Request) :
  exists eff, Shape cfg (body_content req) eff
              /\ forall st, run (createMessage cfg req) st = apply_effect eff st.
Proof.
  unfold createMessage, run. cbv zeta.
  param_split req "groupId"%string.
  - eexists (refuse _). split; [constructor|].
    intros st. rewrite apply_refuse. reflexivity.
  - unfold try_catch, bind, Group_findOne, Message_save, cast_cond, invalid_paths.
    cbn.
    destruct (castObjectId s) as [o|]; cbn.
    + destruct (senderId_required (schema cfg)); cbn.
      * eexists (refuse _). split; [constructor|].
        intros st. rewrite apply_refuse. reflexivity.
      * destruct (content_required (schema cfg) && (body_content req =? ""))%string; cbn.
        -- eexists (refuse _). split; [constructor|].
           intros st. rewrite apply_refuse. reflexivity.
        -- exists (create_effect cfg o (body_content req)). split; [constructor|].
           intros st. unfold apply_effect, create_effect, id_in_use, get_store,
             put_messages, throw, ret. cbn.
           destruct (existsb _ (messages st)); cbn; [|reflexivity].
           unfold with_messages. now rewrite store_eta.
    + eexists (refuse _). split; [constructor|].
      intros st. rewrite apply_refuse. reflexivity.
Qed.

Ltac refused_everywhere :=
  left; eexists; intros ?; reflexivity.

Ltac updated_everywhere :=
  right; eexists; split; cycle 1; [ intros ?; reflexivity | reflexivity ].

(** So is the effect of an update request, which is a refusal or the update
    of the first message that a filter with a null sender matches. *)
Lemma updateMessage_effect (req : Request) :
  (exists e, forall st, run (updateMessage req) st = (st, failure e))
  \/ (exists cnd, c_senderId cnd = Some IsNull
                  /\ forall st, run (updateMessage req) st
                                = apply_effect (update_effect cnd (body_content req)) st).
Proof.
  unfold updateMessage, run. cbv zeta.
  unfold try_catch, bind, Group_findOne, Message_findOneAndUpdate,
    cast_filter, cast_opt, cast_cond.
  param_split req "groupId"%string; param_split req "messageId"%string; cbn.
  - updated_everywhere.
  - destruct (castObjectId s); cbn; [updated_everywhere | refused_everywhere].
  - destruct (castObjectId s); cbn; [updated_everywhere | refused_everywhere].
  - destruct (castObjectId s) as [g|]; cbn; [|refused_everywhere].
    destruct (castObjectId s0) as [mid|]; cbn;
      [updated_everywhere | refused_everywhere].
Qed.

Lemma updateMessage_shape (cfg : Runtime) (req : Request) :
  exists eff, Shape cfg (body_content req) eff
              /\ forall st, run (updateMessage req) st = apply_effect eff st.
Proof.
  destruct (updateMessage_effect req) as [[e He] | [cnd [Hc Hr]]].
  - exists (refuse e). split; [constructor|].
    intros st. now rewrite apply_refuse.
  - exists (update_effect cnd (body_content req)). split; [now constructor | exact Hr].
Qed.

(** Every request that the router handles has one of the three shapes. *)
Lemma serve_shape (cfg : Runtime) (h : HttpRequest) :
  handled h = true ->
  exists eff, Shape cfg (http_content h) eff
              /\ forall st, serve cfg st h = Some (apply_effect eff st).
Proof.
  intros Hh. unfold handled in Hh.
  destruct h as [m p c w]. cbn in Hh.
  destruct m; destruct p as [|a [|b [|d r]]]; try discriminate Hh.
  - eexists (refuse _). split; [constructor|].
    intros st. rewrite serve_cases. cbn.
    now rewrite listMessages_run, apply_refuse.
  - destruct (createMessage_shape cfg (request1 a (mkHttp POST [a] c w)))
      as [eff [Hs Hr]].
    exists eff. split; [exact Hs|].
    intros st. rewrite serve_cases. cbn. now rewrite Hr.
  - eexists (refuse _). split; [constructor|].
    intros st. rewrite serve_cases. cbn.
    now rewrite deleteMessage_throws, apply_refuse.
  - destruct (updateMessage_shape cfg (request2 a b (mkHttp PATCH [a; b] c w)))
      as [eff [Hs Hr]].
    exists eff. split; [exact Hs|].
    intros st. rewrite serve_cases. cbn. now rewrite Hr.
Qed.

Lemma serve_unhandled (cfg : Runtime) (st : Store) (h : HttpRequest) :
  handled h = false -> serve cfg st h = None.
Proof.
  intros Hh. rewrite serve_cases. unfold handled in Hh.
  destruct (method h); destruct (path h) as [|a [|b [|d r]]];
    try reflexivity; discriminate Hh.
Qed.

Lemma serve_some_shape (cfg : Runtime) (st : Store) (h : HttpRequest)
      (p : Store * Res) :
  serve cfg st h = Some p ->
  exists eff, Shape cfg (http_content h) eff /\ p = apply_effect eff st.
Proof.
  intros Hs. destruct (handled h) eqn:Hh.
  - destruct (serve_shape cfg h Hh) as [eff [Hsh Hall]].
    exists eff. split; [exact Hsh|].
    rewrite Hall in Hs. now inversion Hs.
  - rewrite (serve_unhandled cfg st h Hh) in Hs. discriminate.
Qed.

(** ** Lists under [findOneAndUpdate] *)

Section UpdateFirst.

Variable p : Message -> bool.
Variable f : Message -> Message.

Lemma update_first_map {A} (k : Message -> A) (l : list Message) :
  (forall x, k (f x) = k x) -> map k (update_first p f l) = map k l.
Proof.
  intros Hk. induction l as [|x r IH]; simpl; [reflexivity|].
  destruct (p x); simpl.
  - now rewrite Hk.
  - now rewrite IH.
Qed.

Lemma update_first_idem (l : list Message) :
  (forall x, p (f x) = p x) -> (forall x, f (f x) = f x) ->
  update_first p f (update_first p f l) = update_first p f l.
Proof.
  intros Hp Hf. induction l as [|x r IH]; simpl; [reflexivity|].
  destruct (p x) eqn:E; simpl.
  - now rewrite Hp, E, Hf.
  - now rewrite E, IH.
Qed.

Lemma update_first_filter (q : Message -> bool) (l : list Message) :
  (forall x, p x = true -> q x = false) -> (forall x, q (f x) = q x) ->
  filter q (update_first p f l) = filter q l.
Proof.
  intros Hpq Hq. induction l as [|x r IH]; simpl; [reflexivity|].
  destruct (p x) eqn:E; simpl.
  - now rewrite Hq, (Hpq x E).
  - now rewrite IH.
Qed.

Lemma update_first_found (l : list Message) (m : Message) :
  find p l = Some m -> In m l /\ p m = true /\ In (f m) (update_first p f l).
Proof.
  induction l as [|x r IH]; simpl; [discriminate|].
  destruct (p x) eqn:E.
  - intros H. inversion H; subst. simpl. auto.
  - intros H. destruct (IH H) as [Hin [Hp Hf]]. simpl. auto.
Qed.

End UpdateFirst.

Lemma matches_set_content (cnd : MessageCond) (c : string) (x : Message) :
  message_matches cnd (set_content c x) = message_matches cnd x.
Proof. reflexivity. Qed.

Lemma matches_no_sender (cnd : MessageCond) (x : Message) :
  c_senderId cnd = Some IsNull -> message_matches cnd x = true ->
  has_sender x = false.
Proof.
  unfold message_matches, has_sender. intros -> H. cbn in H.
  destruct (senderId x); [|reflexivity].
  rewrite andb_false_r in H. discriminate.
Qed.

Lemma id_not_in_use (o : ObjectId) (l : list Message) :
  id_in_use o l = false -> ~ In o (map m_id l).
Proof.
  unfold id_in_use. induction l as [|x r IH]; simpl; intros H; [tauto|].
  apply orb_false_iff in H. destruct H as [Hx Hr].
  intros [E|Hin].
  - subst o. rewrite String.eqb_refl in Hx. discriminate.
  - now apply IH.
Qed.

(** A create request is refused when the schema requires a sender, and when
    it requires a content and the content is empty. *)
Lemma createMessage_refused (cfg : Runtime) (st : Store) (req : Request) :
  senderId_required (schema cfg) = true
  \/ (content_required (schema cfg) = true /\ body_content req = ""%string) ->
  exists e, run (createMessage cfg req) st = (st, failure e).
Proof.
  intros H.
  unfold createMessage, run. cbv zeta.
  unfold try_catch, bind, Group_findOne, Message_save, cast_cond, invalid_paths.
  param_split req "groupId"%string; cbn.
  - eexists. reflexivity.
  - destruct (castObjectId s) as [o|]; cbn; [|eexists; reflexivity].
    destruct H as [-> | [-> ->]]; cbn.
    + eexists. reflexivity.
    + destruct (senderId_required (schema cfg)); cbn; eexists; reflexivity.
Qed.

(** A create request with a well-formed group id that the schema accepts. *)
Lemma createMessage_accepted (cfg : Runtime) (st : Store) (req : Request)
      (gs : string) (g : ObjectId) :
  param req "groupId" = VString gs -> castObjectId gs = Some g ->
  senderId_required (schema cfg) = false ->
  content_required (schema cfg) = false \/ body_content req <> ""%string ->
  run (createMessage cfg req) st
  = apply_effect (create_effect cfg g (body_content req)) st.
Proof.
  intros Hp Hc Hs Hcont.
  unfold createMessage, run. cbv zeta. rewrite Hp.
  unfold try_catch, bind, Group_findOne, Message_save, cast_cond, invalid_paths.
  cbn. rewrite Hc. cbn. rewrite Hs. cbn.
  assert (E : (content_required (schema cfg) && (body_content req =? ""))%string = false).
  { destruct Hcont as [-> | Hne]; [reflexivity|].
    apply andb_false_iff. right. now apply String.eqb_neq. }
  rewrite E. cbn.
  unfold apply_effect, create_effect, id_in_use, get_store, put_messages, throw, ret.
  cbn. destruct (existsb _ (messages st)); cbn; [|reflexivity].
  unfold with_messages. now rewrite store_eta.
Qed.

(** ** Further properties of the router *)


(** X2. The second route registered on [GET /:groupId], the fetch-one
    handler, is never run: the router dispatches every request as the
    router without that route does. *)
Theorem second_get_route_is_dead :
  forall (cfg : Runtime) (h : HttpRequest),
    dispatch (router cfg) h = dispatch (live_routes cfg) h.
Proof.
  intros cfg [m p c w].
  destruct m; destruct p as [|a [|b [|d r]]]; reflexivity.
Qed.

(** X4. No delete request deletes: whatever the ids, the session and the
    store, the route answers 500 with the TypeError of reading [_id] of
    [undefined] and leaves the store as it was. *)
Theorem delete_never_deletes :
  forall (cfg : Runtime) (st : Store) (gs ms content who : string),
    serve cfg st {| method := DELETE; path := [gs; ms]; http_content := content;
                    session_username := who |}
    = Some (st, failure (TypeError "_id")).
Proof.
  intros. rewrite serve_cases. cbn [method path].
  now rewrite deleteMessage_throws.
Qed.

(** X5. The answer to a request and its effect on the store do not depend
    on the session it is sent in: the same request under another username
    is served identically. *)
Theorem answer_ignores_session :
  forall (cfg : Runtime) (st : Store) (h : HttpRequest) (who : string),
    serve cfg st (in_session h who) = serve cfg st h.
Proof.
  intros cfg st [m p c w] who. rewrite !serve_cases. unfold in_session.
  cbn [method path http_content session_username].
  destruct m; destruct p as [|a [|b [|d r]]]; reflexivity.
Qed.

(** X6. The users and groups collections are never consulted: on two stores
    with the same messages a request gets the same answer and leaves the
    same messages, whatever users and groups the stores hold. *)
Theorem answer_depends_on_messages_only :
  forall (cfg : Runtime) (h : HttpRequest) (st1 st2 : Store),
    messages st1 = messages st2 ->
    seen (serve cfg st1 h) = seen (serve cfg st2 h).
Proof.
  intros cfg h st1 st2 E.
  destruct (handled h) eqn:Hh.
  - destruct (serve_shape cfg h Hh) as [eff [_ Hall]].
    rewrite !Hall. unfold seen, apply_effect. cbn. now rewrite E.
  - now rewrite !serve_unhandled.
Qed.

Lemma answer_depends_on_messages_only_witness :
  messages chat = messages {| users := []; groups := []; messages := [hello] |}
  /\ seen (serve (at_20 lenient) chat (http POST [team_id] "hi" bob))
     = seen (serve (at_20 lenient)
                   {| users := []; groups := []; messages := [hello] |}
                   (http POST [team_id] "hi" bob)).
Proof.
  split; [reflexivity|].
  apply (answer_depends_on_messages_only (at_20 lenient)
           (http POST [team_id] "hi" bob) chat
           {| users := []; groups := []; messages := [hello] |}).
  reflexivity.
Defined.

(** X7. No route writes to the users or to the groups: after any served
    request both collections are what they were. *)
Theorem users_and_groups_never_written :
  forall (cfg : Runtime) (st st' : Store) (h : HttpRequest) (r : Res),
    serve cfg st h = Some (st', r) ->
    users st' = users st /\ groups st' = groups st.
Proof.
  intros cfg st st' h r Hs.
  destruct (serve_some_shape _ _ _ _ Hs) as [eff [_ E]].
  inversion E; subst. split; reflexivity.
Qed.

Lemma users_and_groups_never_written_witness :
  users (with_messages chat [hello; new_message (at_20 lenient) team_id "hi"])
  = users chat
  /\ groups (with_messages chat [hello; new_message (at_20 lenient) team_id "hi"])
     = groups chat.
Proof.
  apply (users_and_groups_never_written (at_20 lenient) chat
           (with_messages chat [hello; new_message (at_20 lenient) team_id "hi"])
           (http POST [team_id] "hi" bob)
           (answer 201 (DataMessage (Some (new_message (at_20 lenient) team_id "hi"))))).
  reflexivity.
Defined.

(** X8. The router has three answers and no other: 500 with the error, the
    store left as it was; 201 with the created message, which is the one
    message added to the store; 200 with one message or null.  It never
    answers 204, never sends a list and never leaves a handled request
    without an answer. *)
Theorem answers_of_the_router :
  forall (cfg : Runtime) (st st' : Store) (h : HttpRequest) (r : Res),
    serve cfg st h = Some (st', r) ->
    (exists e, r = failure e /\ st' = st)
    \/ (exists d, r = answer 201 (DataMessage (Some d))
                  /\ messages st' = messages st ++ [d])
    \/ (exists m, r = answer 200 (DataMessage m)).
Proof.
  intros cfg st st' h r Hs.
  destruct (serve_some_shape _ _ _ _ Hs) as [eff [Hsh E]].
  destruct Hsh as [e | g | cnd Hc].
  - rewrite apply_refuse in E. inversion E; subst. left. now exists e.
  - unfold apply_effect, create_effect in E.
    destruct (id_in_use (fresh_id cfg) (messages st)); cbn in E;
      inversion E; subst.
    + left. eexists. split; [reflexivity|].
      unfold with_messages. now rewrite store_eta.
    + right. left. eexists. split; reflexivity.
  - inversion E; subst. right. right. eexists. reflexivity.
Qed.

Lemma answers_of_the_router_witness :
  (exists e, answer 200 (DataMessage (Some note)) = failure e
             /\ with_messages notes [hello; set_content "hi" note] = notes)
  \/ (exists d, answer 200 (DataMessage (Some note)) = answer 201 (DataMessage (Some d))
                /\ messages (with_messages notes [hello; set_content "hi" note])
                   = messages notes ++ [d])
  \/ (exists m, answer 200 (DataMessage (Some note)) = answer 200 (DataMessage m)).
Proof.
  apply (answers_of_the_router (at_20 strict) notes
           (with_messages notes [hello; set_content "hi" note])
           (http PATCH [team_id; note_id] "hi" carol)
           (answer 200 (DataMessage (Some note)))).
  reflexivity.
Defined.

(** X9. No route removes a message or rewrites its id, group, sender or
    sent date: after any served request the messages have the ids, groups,
    senders and dates they had, in the same order, followed by those of at
    most one new message. *)
Theorem fixed_parts_are_kept :
  forall (cfg : Runtime) (st st' : Store) (h : HttpRequest) (r : Res),
    serve cfg st h = Some (st', r) ->
    exists extra,
      map fixed_part (messages st') = map fixed_part (messages st) ++ extra
      /\ (List.length extra <= 1)%nat.
Proof.
  intros cfg st st' h r Hs.
  destruct (serve_some_shape _ _ _ _ Hs) as [eff [Hsh E]].
  destruct Hsh as [e | g | cnd Hc].
  - rewrite apply_refuse in E. inversion E; subst.
    exists []. rewrite app_nil_r. split; [reflexivity | simpl; lia].
  - unfold apply_effect, create_effect in E.
    destruct (id_in_use (fresh_id cfg) (messages st)); cbn in E;
      inversion E; subst; cbn.
    + exists []. rewrite app_nil_r. split; [reflexivity | simpl; lia].
    + eexists [_]. rewrite map_app. split; [reflexivity | simpl; lia].
  - inversion E; subst. cbn.
    exists []. rewrite app_nil_r. split; [|simpl; lia].
    now apply update_first_map.
Qed.

Lemma fixed_parts_are_kept_witness :
  exists extra,
    map fixed_part (messages (with_messages notes [hello; set_content "hi" note]))
    = map fixed_part (messages notes) ++ extra
    /\ (List.length extra <= 1)%nat.
Proof.
  apply (fixed_parts_are_kept (at_20 strict) notes
           (with_messages notes [hello; set_content "hi" note])
           (http PATCH [team_id; note_id] "hi" carol)
           (answer 200 (DataMessage (Some note)))).
  reflexivity.
Defined.

(** X10. A message that records a sender is out of reach of every route:
    after any served request the messages with a sender are exactly the
    ones there were, unchanged and in the same order.  What the routes add
    or edit are messages without a sender. *)
Theorem messages_with_sender_are_kept :
  forall (cfg : Runtime) (st st' : Store) (h : HttpRequest) (r : Res),
    serve cfg st h = Some (st', r) ->
    filter has_sender (messages st') = filter has_sender (messages st).
Proof.
  intros cfg st st' h r Hs.
  destruct (serve_some_shape _ _ _ _ Hs) as [eff [Hsh E]].
  destruct Hsh as [e | g | cnd Hc].
  - rewrite apply_refuse in E. now inversion E; subst.
  - unfold apply_effect, create_effect in E.
    destruct (id_in_use (fresh_id cfg) (messages st)); cbn in E;
      inversion E; subst; cbn; [reflexivity|].
    rewrite filter_app. cbn. now rewrite app_nil_r.
  - inversion E; subst. cbn.
    apply update_first_filter.
    + intros x Hx. now apply (matches_no_sender cnd).
    + reflexivity.
Qed.

Lemma messages_with_sender_are_kept_witness :
  filter has_sender (messages (with_messages notes [hello; set_content "hi" note]))
  = filter has_sender (messages notes).
Proof.
  apply (messages_with_sender_are_kept (at_20 strict) notes
           (with_messages notes [hello; set_content "hi" note])
           (http PATCH [team_id; note_id] "hi" carol)
           (answer 200 (DataMessage (Some note)))).
  reflexivity.
Defined.

(** X11. Ids stay unique: if no two messages of the store share an id, no
    two do after any served request. *)
Theorem ids_stay_unique :
  forall (cfg : Runtime) (st st' : Store) (h : HttpRequest) (r : Res),
    NoDup (map m_id (messages st)) ->
    serve cfg st h = Some (st', r) ->
    NoDup (map m_id (messages st')).
Proof.
  intros cfg st st' h r Hnd Hs.
  destruct (serve_some_shape _ _ _ _ Hs) as [eff [Hsh E]].
  destruct Hsh as [e | g | cnd Hc].
  - rewrite apply_refuse in E. now inversion E; subst.
  - unfold apply_effect, create_effect in E.
    destruct (id_in_use (fresh_id cfg) (messages st)) eqn:Hu; cbn in E;
      inversion E; subst; cbn; [assumption|].
    rewrite map_app. cbn.
    apply NoDup_app_remove_l with (l := []). cbn.
    apply Permutation_NoDup with (l := fresh_id cfg :: map m_id (messages st)).
    + apply Permutation_cons_append.
    + constructor; [now apply id_not_in_use | assumption].
  - inversion E; subst. cbn.
    rewrite update_first_map; [assumption | reflexivity].
Qed.

Lemma ids_stay_unique_witness :
  NoDup (map m_id (messages chat))
  /\ NoDup (map m_id (messages
       (with_messages chat [hello; new_message (at_20 lenient) team_id "hi"]))).
Proof.
  assert (H : NoDup (map m_id (messages chat))).
  { repeat constructor. simpl. tauto. }
  split; [exact H|].
  apply (ids_stay_unique (at_20 lenient) chat
           (with_messages chat [hello; new_message (at_20 lenient) team_id "hi"])
           (http POST [team_id] "hi" bob)
           (answer 201 (DataMessage (Some (new_message (at_20 lenient) team_id "hi"))))).
  - exact H.
  - reflexivity.
Defined.

(** X12. The create route does not ask that the group exists or that the
    caller belongs to it: with a well-formed group id, a schema that does
    not require a sender, a content the schema accepts and an unused new
    id, the message is appended to the store, without a sender, not edited,
    dated with the time of the request, and is answered with 201. *)
Theorem create_needs_no_group :
  forall (cfg : Runtime) (st : Store) (gs content who : string) (g : ObjectId),
    castObjectId gs = Some g ->
    senderId_required (schema cfg) = false ->
    content_required (schema cfg) = false \/ content <> ""%string ->
    id_in_use (fresh_id cfg) (messages st) = false ->
    serve cfg st {| method := POST; path := [gs]; http_content := content;
                    session_username := who |}
    = Some (with_messages st (messages st ++ [new_message cfg g content]),
            answer 201 (DataMessage (Some (new_message cfg g content)))).
Proof.
  intros cfg st gs content who g Hc Hs Hcont Hu.
  rewrite serve_cases. cbn [method path].
  rewrite (createMessage_accepted cfg st _ gs g); trivial.
  unfold apply_effect, create_effect. now rewrite Hu.
Qed.

Lemma create_needs_no_group_witness :
  groups {| users := []; groups := []; messages := [] |} = []
  /\ serve (at_20 spec_schema) {| users := []; groups := []; messages := [] |}
           (http POST [missing_id] "hi" mallory)
     = Some ({| users := []; groups := [];
                messages := [new_message (at_20 spec_schema) missing_id "hi"] |},
             answer 201 (DataMessage
                           (Some (new_message (at_20 spec_schema) missing_id "hi")))).
Proof.
  split; [reflexivity|].
  apply (create_needs_no_group (at_20 spec_schema)
           {| users := []; groups := []; messages := [] |}
           missing_id "hi" "mallory" missing_id).
  - reflexivity.
  - reflexivity.
  - right. discriminate.
  - reflexivity.
Defined.

(** X13. With a Message schema that requires a sender the create route
    never stores anything: every create request is answered 500 and the
    store is left as it was. *)
Theorem create_refused_when_sender_required :
  forall (cfg : Runtime) (st : Store) (gs content who : string),
    senderId_required (schema cfg) = true ->
    exists e,
      serve cfg st {| method := POST; path := [gs]; http_content := content;
                      session_username := who |}
      = Some (st, failure e).
Proof.
  intros cfg st gs content who Hs.
  rewrite serve_cases. cbn [method path].
  destruct (createMessage_refused cfg st
              (request1 gs {| method := POST; path := [gs];
                              http_content := content;
                              session_username := who |}))
    as [e He]; [now left|].
  exists e. now rewrite He.
Qed.

Lemma create_refused_when_sender_required_witness :
  exists e,
    serve (at_20 strict) chat (http POST [team_id] "hello" alice)
    = Some (chat, failure e).
Proof.
  apply (create_refused_when_sender_required (at_20 strict) chat
           team_id "hello" "alice").
  reflexivity.
Defined.

(** X14. When the router answers 200 with a message, the message is a
    document of the store as it was before the request and has no sender;
    what the store holds afterwards is that document with the content of
    the request and [edited] set, which the answer does not show. *)
Theorem update_answers_with_old_document :
  forall (cfg : Runtime) (st st' : Store) (h : HttpRequest) (m : Message),
    serve cfg st h = Some (st', answer 200 (DataMessage (Some m))) ->
    In m (messages st)
    /\ senderId m = None
    /\ In (set_content (http_content h) m) (messages st').
Proof.
  intros cfg st st' h m Hs.
  destruct (serve_some_shape _ _ _ _ Hs) as [eff [Hsh E]].
  destruct Hsh as [e | g | cnd Hc].
  - rewrite apply_refuse in E. inversion E.
  - unfold apply_effect, create_effect in E.
    destruct (id_in_use (fresh_id cfg) (messages st)); cbn in E; inversion E.
  - inversion E as [[E1 E2]]. cbn.
    symmetry in E2.
    destruct (update_first_found _ (set_content (http_content h)) _ _ E2)
      as [Hin [Hp Hf]].
    repeat split; trivial.
    pose proof (matches_no_sender cnd m Hc Hp) as Hn.
    unfold has_sender in Hn. destruct (senderId m); [discriminate | reflexivity].
Qed.

Lemma update_answers_with_old_document_witness :
  In note (messages notes)
  /\ senderId note = None
  /\ In (set_content "hi" note)
        (messages (with_messages notes [hello; set_content "hi" note])).
Proof.
  apply (update_answers_with_old_document (at_20 strict) notes
           (with_messages notes [hello; set_content "hi" note])
           (http PATCH [team_id; note_id] "hi" carol) note).
  reflexivity.
Defined.

(** X15. An update request sent twice leaves the store as the first one
    left it: the second request changes nothing more. *)
Theorem update_twice_is_update_once :
  forall (cfg : Runtime) (st : Store) (gs ms content who : string),
    let h := {| method := PATCH; path := [gs; ms]; http_content := content;
                session_username := who |} in
    exists st1 r1 r2,
      serve cfg st h = Some (st1, r1) /\ serve cfg st1 h = Some (st1, r2).
Proof.
  intros cfg st gs ms content who h.
  assert (Hserve : forall s, serve cfg s h
                             = Some (run (updateMessage (request2 gs ms h)) s)).
  { intros s. now rewrite serve_cases. }
  rewrite Hserve.
  destruct (updateMessage_effect (request2 gs ms h)) as [[e He] | [cnd [Hc Hr]]].
  - exists st, (failure e), (failure e).
    split; [now rewrite He | now rewrite Hserve, He].
  - rewrite Hr. eexists _, _, _. split; [reflexivity|].
    rewrite Hserve, Hr. unfold apply_effect, update_effect, with_messages. cbn.
    rewrite update_first_idem; reflexivity.
Qed.

(** X16. An update request for an id that names no message is not an
    error: with well-formed ids it is answered 200 with [success: true] and
    [data: null], and the store is left as it was. *)
Theorem update_of_missing_id_is_silent :
  forall (cfg : Runtime) (st : Store) (gs ms content who : string)
         (g mid : ObjectId),
    castObjectId gs = Some g ->
    castObjectId ms = Some mid ->
    id_in_use mid (messages st) = false ->
    serve cfg st {| method := PATCH; path := [gs; ms]; http_content := content;
                    session_username := who |}
    = Some (st, answer 200 (DataMessage None)).
Proof.
  intros cfg st gs ms content who g mid Hg Hm Hu.
  rewrite serve_cases. cbn [method path].
  rewrite (updateMessage_run st _ gs ms g mid); trivial.
  assert (Hno : forall x, In x (messages st)
                          -> message_matches (update_cond g mid) x = false).
  { intros x Hx. unfold message_matches, update_cond, opt_holds. cbn.
    destruct (String.eqb mid (m_id x)) eqn:E; [|reflexivity].
    exfalso. apply String.eqb_eq in E.
    apply (id_not_in_use mid (messages st) Hu).
    rewrite E. now apply in_map. }
  rewrite update_first_no_match, find_no_match by exact Hno.
  now rewrite store_eta.
Qed.

Lemma update_of_missing_id_is_silent_witness :
  serve (at_20 strict) chat (http PATCH [team_id; missing_id] "hi" bob)
  = Some (chat, answer 200 (DataMessage None)).
Proof.
  apply (update_of_missing_id_is_silent (at_20 strict) chat
           team_id missing_id "hi" "bob" team_id missing_id);
    reflexivity.
Defined.



(** ** The chat page against the router *)

(** X18. The chat page never shows the history: [loadMessages], in any
    session, for any group and on any store, finds no [data] in the answer
    of the list route, ends with the error of iterating over it and leaves
    the feed and the store as they were. *)
Theorem history_is_never_shown :
  forall (format_date : Z -> string) (display_name_of : string -> option string)
         (cfg : Runtime) (st : Store) (who group : string) (feed : list string),
    loadMessages format_date display_name_of cfg st who group feed
    = Some (st, (feed, Some NotIterable)).
Proof.
  intros. unfold loadMessages.
  rewrite serve_cases. cbn [method path].
  now rewrite listMessages_run.
Qed.

(** X19. The submit button emits a message that the server refuses: when
    the schema requires a sender, or requires a content and the input is
    empty, the click still emits the chat message on the socket, with the
    input as content, and clears the input, while the create request is
    refused and the store is left as it was. *)
Theorem rejected_message_is_still_emitted :
  forall (format_date : Z -> string) (cfg : Runtime) (st : Store)
         (who group sender : string) (clock : Z) (p : Page),
    senderId_required (schema cfg) = true
    \/ (content_required (schema cfg) = true /\ chat_input p = ""%string) ->
    submit_chat format_date cfg st who group (Some sender) clock p
    = Some (st,
            {| chat_input := ""; chat_feed := chat_feed p;
               emitted := emitted p
                          ++ [ {| line_content := chat_input p;
                                  line_sender := sender;
                                  line_date := format_date clock |} ] |},
            None).
Proof.
  intros format_date cfg st who group sender clock p H.
  unfold submit_chat. rewrite serve_cases. cbn [method path].
  destruct (createMessage_refused cfg st
              (request1 group {| method := POST; path := [group];
                                 http_content := chat_input p;
                                 session_username := who |}) H)
    as [e He].
  now rewrite He.
Qed.

Lemma rejected_message_is_still_emitted_witness :
  submit_chat (fun _ => "11/03/26 9:00 am"%string) (at_20 spec_schema) chat
              "bob" team_id (Some "Bob"%string) 30
              {| chat_input := ""; chat_feed := []; emitted := [] |}
  = Some (chat,
          {| chat_input := ""; chat_feed := [];
             emitted := [ {| line_content := ""; line_sender := "Bob";
                             line_date := "11/03/26 9:00 am" |} ] |},
          None).
Proof.
  apply (rejected_message_is_still_emitted
           (fun _ => "11/03/26 9:00 am"%string) (at_20 spec_schema) chat
           "bob" team_id "Bob" 30
           {| chat_input := ""; chat_feed := []; emitted := [] |}).
  right. split; reflexivity.
Defined.

(** ** The list query and the round trip of a created message *)

(** X20. The query of the list handler, for a well-formed group id, leaves
    the store alone and yields the messages of that group and no others,
    each once, in ascending order of their sent date: the list that the
    handler computes before its send statement throws. *)
Theorem list_query_is_sorted_group :
  forall (w : World) (gs : string) (g : ObjectId),
    castObjectId gs = Some g ->
    exists ms,
      Message_find_sorted {| f_id := None; f_groupId := Some (VString gs);
                             f_senderId := None; f_messageId := None |} w
      = (w, inr ms)
      /\ Sorted by_date ms
      /\ Permutation ms (filter (fun m => String.eqb g (groupId m))
                                (messages (store w))).
Proof.
  intros w gs g Hg.
  unfold Message_find_sorted, cast_filter, cast_opt, cast_cond, bind, get_store, ret.
  cbn. rewrite Hg. cbn.
  eexists. split; [reflexivity|]. split.
  - apply sort_by_date_sorted.
  - apply Permutation_sym.
    eapply perm_trans; [|apply sort_by_date_perm].
    erewrite filter_ext; [apply Permutation_refl|].
    intros m. unfold message_matches. cbn.
    now rewrite !andb_true_r.
Qed.

Lemma list_query_is_sorted_group_witness :
  exists ms,
    Message_find_sorted {| f_id := None; f_groupId := Some (VString team_id);
                           f_senderId := None; f_messageId := None |}
                        {| store := notes; res := fresh_res |}
    = ({| store := notes; res := fresh_res |}, inr ms)
    /\ Sorted by_date ms
    /\ Permutation ms (filter (fun m => String.eqb team_id (groupId m))
                              (messages notes)).
Proof.
  apply (list_query_is_sorted_group {| store := notes; res := fresh_res |}
           team_id team_id).
  reflexivity.
Defined.

Lemma update_first_last (p : Message -> bool) (f : Message -> Message)
      (l : list Message) (d : Message) :
  (forall x, In x l -> p x = false) -> p d = true ->
  update_first p f (l ++ [d]) = l ++ [f d] /\ find p (l ++ [d]) = Some d.
Proof.
  intros Hl Hd. induction l as [|x r IH]; simpl.
  - now rewrite Hd.
  - rewrite (Hl x (or_introl eq_refl)).
    destruct IH as [IH1 IH2]; [intros y Hy; apply Hl; now right|].
    now rewrite IH1, IH2.
Qed.

(** X21. A message created through the router can be edited by anyone: when
    a create request is accepted, an update request for the new id in any
    session replaces the content of the stored message and sets [edited],
    and is answered 200 with the message as it was created. *)
Theorem created_message_is_open_to_all :
  forall (cfg : Runtime) (st : Store) (gs c1 c2 who1 who2 : string) (g : ObjectId),
    castObjectId gs = Some g ->
    castObjectId (fresh_id cfg) = Some (fresh_id cfg) ->
    senderId_required (schema cfg) = false ->
    content_required (schema cfg) = false \/ c1 <> ""%string ->
    id_in_use (fresh_id cfg) (messages st) = false ->
    exists st1 r1,
      serve cfg st {| method := POST; path := [gs]; http_content := c1;
                      session_username := who1 |} = Some (st1, r1)
      /\ serve cfg st1 {| method := PATCH; path := [gs; fresh_id cfg];
                          http_content := c2; session_username := who2 |}
         = Some (with_messages st
                   (messages st ++ [set_content c2 (new_message cfg g c1)]),
                 answer 200 (DataMessage (Some (new_message cfg g c1)))).
Proof.
  intros cfg st gs c1 c2 who1 who2 g Hg Hf Hs Hc Hu.
  eexists _, _. split.
  - rewrite serve_cases. cbn [method path].
    rewrite (createMessage_accepted cfg st _ gs g); trivial.
    unfold apply_effect, create_effect. rewrite Hu. reflexivity.
  - rewrite serve_cases. cbn [method path fst snd].
    rewrite (updateMessage_run _ _ gs (fresh_id cfg) g (fresh_id cfg)); trivial.
    cbn [messages users groups with_messages body_content request2 http_content].
    destruct (update_first_last
                (message_matches (update_cond g (fresh_id cfg)))
                (set_content c2) (messages st) (new_message cfg g c1))
      as [E1 E2].
    + intros x Hx. unfold message_matches, update_cond, opt_holds. cbn.
      destruct (String.eqb (fresh_id cfg) (m_id x)) eqn:E; [|reflexivity].
      exfalso. apply String.eqb_eq in E.
      apply (id_not_in_use (fresh_id cfg) (messages st) Hu).
      rewrite E. now apply in_map.
    + unfold message_matches, update_cond, opt_holds, new_message. cbn.
      now rewrite !String.eqb_refl.
    + cbn [body_content request1 http_content]. now rewrite E1, E2.
Qed.

Lemma created_message_is_open_to_all_witness :
  exists st1 r1,
    serve (at_20 lenient) chat (http POST [team_id] "hi" bob) = Some (st1, r1)
    /\ serve (at_20 lenient) st1 (http PATCH [team_id; new_id] "gone" mallory)
       = Some (with_messages chat
                 (messages chat
                  ++ [set_content "gone" (new_message (at_20 lenient) team_id "hi")]),
               answer 200 (DataMessage
                             (Some (new_message (at_20 lenient) team_id "hi")))).
Proof.
  apply (created_message_is_open_to_all (at_20 lenient) chat
           team_id "hi" "gone" "bob" "mallory" team_id).
  - reflexivity.
  - reflexivity.
  - reflexivity.
  - left. reflexivity.
  - reflexivity.
Defined.
